(** * Interactive sessions REST controller of the REANA workflow controller

    A shallow embedding of
    [reana_workflow_controller/rest/workflows_session.py]: the two view
    functions [open_interactive_session] and [close_interactive_session],
    their shared [except] clauses, and the collaborators they call (the
    workflow resolver and the session relation of [reana_db], and the
    [KubernetesWorkflowRunManager]).  The collaborators are parameters of
    the development; the control flow, the local variable [workflow] whose
    binding the [except] clauses inspect, the messages and the status codes
    are those of the source. *)

From Stdlib Require Import String Ascii List ZArith Bool Lia.
Import ListNotations.
Open Scope string_scope.
Open Scope Z_scope.

(** ** Python values *)

(** The exception classes the [except] clauses tell apart:
    [except (KeyError, ValueError)] first, [except Exception] second.
    [Exception] stands for every error class that derives from neither
    [KeyError] nor [ValueError]. *)
Inductive exc_class : Type := KeyError | ValueError | Exception.

(** A raised error: its class and the text [str(e)] yields. *)
Record exn : Type := { exn_class : exc_class; exn_str : string }.

Definition str (e : exn) : string := exn_str e.

(** A name of the function's frame: not yet assigned, or holding a value. *)
Inductive local (A : Type) : Type :=
| Unbound
| Bound (v : A).
Arguments Unbound {A}.
Arguments Bound {A} v.

(** Modelled from the spec: the run states of [reana_db.models.RunStatus],
    an enumeration this module imports; the spec asks for a finite set of
    run states with a terminal [deleted] one, and the controller compares
    against that member only. *)
Inductive RunStatus : Type :=
| created | running | finished | failed | deleted | stopped | queued | pending.

Definition RunStatus_eqb (a b : RunStatus) : bool :=
  match a, b with
  | created, created | running, running | finished, finished
  | failed, failed | deleted, deleted | stopped, stopped
  | queued, queued | pending, pending => true
  | _, _ => false
  end.

(** The workflow row the resolver hands back; [status] is the attribute the
    controller reads. *)
Record Workflow : Type := {
  wf_id_ : string;
  wf_name : string;
  wf_owner_id : string;
  status : RunStatus
}.

(** An interactive session row; the controller reads [id_] only. *)
Record Session : Type := {
  id_ : string;
  type_ : string;
  path : string
}.

(** [None] and objects under [if x] / [not x]: a model instance defines
    neither [__bool__] nor [__len__], so it is true; [None] is false. *)
Definition truthy {A : Type} (v : option A) : bool :=
  match v with Some _ => true | None => false end.

(** The JSON object handed to [jsonify], field by field. *)
Definition json : Type := list (string * string).

Definition jsonify (d : json) : json := d.

(** The pair [(jsonify(...), status_code)] a view returns. *)
Definition response : Type := (json * Z)%type.

(** What a call of a view function ends with: the returned pair, or an
    error that leaves the function. The only error that can leave is the
    [UnboundLocalError] of reading a name of the frame before it was
    assigned. *)
Inductive outcome : Type :=
| Returns (r : response)
| Raises_UnboundLocalError (name : string).

(** [repr] of a [str] that is an identifier, as enumeration member names
    are: the text between single quotes, nothing to escape. *)
Definition py_repr (s : string) : string := "'" ++ s ++ "'".

(** [", ".join(...)]. *)
Fixpoint join (sep : string) (l : list string) : string :=
  match l with
  | [] => ""
  | [x] => x
  | x :: rest => x ++ sep ++ join sep rest
  end.

(** How an f-string renders a list of [str]. *)
Definition py_repr_list (l : list string) : string :=
  "[" ++ join ", " (map py_repr l) ++ "]".

(** The rendered elements with the closing bracket. *)
Definition listing_tail (l : list string) : string :=
  join ", " (map py_repr l) ++ "]".

(** A text without the single quote, as every identifier is. *)
Fixpoint quote_free (s : string) : bool :=
  match s with
  | EmptyString => true
  | String c rest => negb (Ascii.eqb c "'"%char) && quote_free rest
  end.

(** [key in mapping] for string keys. *)
Definition mem_string (s : string) (l : list string) : bool :=
  existsb (String.eqb s) l.

(** [request.args[key]]: the first value sent for [key]. *)
Fixpoint args_get (args : list (string * string)) (key : string) : option string :=
  match args with
  | [] => None
  | (k, v) :: rest => if String.eqb k key then Some v else args_get rest key
  end.

(** The [BadRequestKeyError] of a missing query argument: a [KeyError]. *)
Definition BadRequestKeyError : exn :=
  {| exn_class := KeyError;
     exn_str := "400 Bad Request: The browser (or proxy) sent a request that this server could not understand." |}.

(** The calls the controller makes to its collaborators, in order. *)
Inductive event : Type :=
| EvResolve (workflow_id_or_name user : string)
| EvSessionsFirst (w : Workflow)
| EvStatus (w : Workflow)
| EvStart (w : Workflow) (interactive_session_type : string) (image : option string)
| EvStop (w : Workflow) (session_id : string).

Definition is_start (ev : event) : bool :=
  match ev with EvStart _ _ _ => true | _ => false end.

Definition is_stop (ev : event) : bool :=
  match ev with EvStop _ _ => true | _ => false end.

Definition is_status (ev : event) : bool :=
  match ev with EvStatus _ => true | _ => false end.

(** ** The controller *)

Section Controller.

(** The state of the record store and of the orchestration backend. *)
Variable World : Type.

(** The member names of [InteractiveSessionType], in definition order:
    the keys of [__members__] and the names iteration yields. *)
Variable InteractiveSessionType : list string.

(** [reana_db.utils._get_workflow_with_uuid_or_name]: the workflow of that
    identifier or name and that owner, or the error raised. *)
Variable _get_workflow_with_uuid_or_name :
  World -> string -> string -> exn + Workflow.

(** [workflow.sessions.first()]. *)
Variable sessions_first : World -> Workflow -> option Session.

(** [KubernetesWorkflowRunManager(workflow).start_interactive_session]:
    the new world and the access path, as [str] renders it, or the error
    raised. *)
Variable start_interactive_session :
  World -> Workflow -> string -> option string -> World * (exn + string).

(** [KubernetesWorkflowRunManager(workflow).stop_interactive_session]:
    the new world, and the error raised if any. *)
Variable stop_interactive_session :
  World -> Workflow -> string -> World * (exn + unit).

(** The running call: the world, the local [workflow] of the view
    function, and the calls made so far. *)
Record frame : Type := {
  world : World;
  workflow : local (option Workflow);
  calls : list event
}.

(** The body of a [try]: raises or yields, from a frame to a frame. *)
Definition M (A : Type) : Type := frame -> (exn + A) * frame.

Definition ret {A : Type} (a : A) : M A := fun f => (inr a, f).

Definition raise {A : Type} (e : exn) : M A := fun f => (inl e, f).

Definition bind {A B : Type} (c : M A) (k : A -> M B) : M B :=
  fun f =>
    match c f with
    | (inr a, f') => k a f'
    | (inl e, f') => (inl e, f')
    end.

Notation "x <- c ;; k" := (bind c (fun x => k))
  (at level 100, c at next level, right associativity).

Definition log (ev : event) : M unit :=
  fun f => (inr tt, {| world := world f; workflow := workflow f;
                       calls := calls f ++ [ev] |}).

Definition assign_workflow (v : option Workflow) : M unit :=
  fun f => (inr tt, {| world := world f; workflow := Bound v;
                       calls := calls f |}).

Definition lift_result {A : Type} (r : exn + A) : M A :=
  match r with inr a => ret a | inl e => raise e end.

Definition resolve (workflow_id_or_name user : string) : M Workflow :=
  _ <- log (EvResolve workflow_id_or_name user) ;;
  fun f => lift_result
             (_get_workflow_with_uuid_or_name (world f) workflow_id_or_name user) f.

Definition first_session (w : Workflow) : M (option Session) :=
  _ <- log (EvSessionsFirst w) ;;
  fun f => (inr (sessions_first (world f) w), f).

Definition get_status (w : Workflow) : M RunStatus :=
  _ <- log (EvStatus w) ;;
  ret (status w).

Definition start (w : Workflow) (ty : string) (image : option string) : M string :=
  _ <- log (EvStart w ty image) ;;
  fun f =>
    let '(world', r) := start_interactive_session (world f) w ty image in
    lift_result r {| world := world'; workflow := workflow f; calls := calls f |}.

Definition stop (w : Workflow) (session_id : string) : M unit :=
  _ <- log (EvStop w session_id) ;;
  fun f =>
    let '(world', r) := stop_interactive_session (world f) w session_id in
    lift_result r {| world := world'; workflow := workflow f; calls := calls f |}.

Definition request_args (args : list (string * string)) (key : string) : M string :=
  match args_get args key with
  | Some v => ret v
  | None => raise BadRequestKeyError
  end.

(** The two [except] clauses, the same in both views:
<<
  except (KeyError, ValueError) as e:
      status_code = 400 if workflow else 404
      return jsonify({"message": str(e)}), status_code
  except Exception as e:
      return jsonify({"message": str(e)}), 500
>>
    An error raised inside a clause is not caught by the clause that
    follows it. *)
Definition except_clauses (e : exn) (f : frame) : outcome * frame :=
  match exn_class e with
  | KeyError | ValueError =>
      match workflow f with
      | Unbound => (Raises_UnboundLocalError "workflow", f)
      | Bound v =>
          let status_code := if truthy v then 400 else 404 in
          (Returns (jsonify [("message", str e)], status_code), f)
      end
  | Exception => (Returns (jsonify [("message", str e)], 500), f)
  end.

Definition try_except (body : M response) : frame -> outcome * frame :=
  fun f =>
    match body f with
    | (inr r, f') => (Returns r, f')
    | (inl e, f') => except_clauses e f'
    end.

(** A call of a view: a fresh frame, no name bound. *)
Definition call (view : frame -> outcome * frame) (w : World)
  : outcome * World * list event :=
  let '(o, f) := view {| world := w; workflow := Unbound; calls := [] |} in
  (o, world f, calls f).

Definition unknown_session_type_msg (interactive_session_type : string) : string :=
  "Interactive session type " ++ interactive_session_type ++ " not found, "
  ++ "try with one of: " ++ py_repr_list InteractiveSessionType.

Definition open_body (workflow_id_or_name interactive_session_type user : string)
           (image : option string) : M response :=
  if negb (mem_string interactive_session_type InteractiveSessionType) then
    ret (jsonify [("message", unknown_session_type_msg interactive_session_type)], 404)
  else
    w <- resolve workflow_id_or_name user ;;
    _ <- assign_workflow (Some w) ;;
    s <- first_session w ;;
    if truthy s then
      ret (jsonify [("message", "Interactive session is already open")], 404)
    else
      st <- get_status w ;;
      if RunStatus_eqb st deleted then
        ret (jsonify [("message",
                       "Interactive session can't be opened from a deleted workflow")],
             404)
      else
        access_path <- start w interactive_session_type image ;;
        ret (jsonify [("path", access_path)], 200).

Definition open_interactive_session (w : World)
           (workflow_id_or_name interactive_session_type user : string)
           (image : option string) : outcome * World * list event :=
  call (try_except (open_body workflow_id_or_name interactive_session_type user image)) w.

Definition no_open_session_msg (workflow_id_or_name : string) : string :=
  "Workflow - " ++ workflow_id_or_name ++ " has no open interactive session.".

Definition close_body (args : list (string * string)) (workflow_id_or_name : string)
  : M response :=
  user_uuid <- request_args args "user" ;;
  _ <- assign_workflow None ;;
  w <- resolve workflow_id_or_name user_uuid ;;
  _ <- assign_workflow (Some w) ;;
  int_session <- first_session w ;;
  match int_session with
  | None =>
      ret (jsonify [("message", no_open_session_msg workflow_id_or_name)], 404)
  | Some s =>
      _ <- stop w (id_ s) ;;
      ret (jsonify [("message", "The interactive session has been closed")], 200)
  end.

Definition close_interactive_session (w : World) (args : list (string * string))
           (workflow_id_or_name : string) : outcome * World * list event :=
  call (try_except (close_body args workflow_id_or_name)) w.

End Controller.

Arguments world {World} f.
Arguments workflow {World} f.
Arguments calls {World} f.
Arguments open_interactive_session {World}.
Arguments close_interactive_session {World}.

(** The errors the first [except] clause takes. *)
Definition is_key_or_value_error (e : exn) : bool :=
  match exn_class e with
  | KeyError | ValueError => true
  | Exception => false
  end.

(** The named failures of the controller, as the responses the views build
    for them. *)
Definition WorkflowNotFound (e : exn) : response :=
  (jsonify [("message", str e)], 404).

Definition SessionAlreadyOpen : response :=
  (jsonify [("message", "Interactive session is already open")], 404).

Definition WorkflowDeleted : response :=
  (jsonify [("message", "Interactive session can't be opened from a deleted workflow")],
   404).

Definition UnknownSessionType (members : list string) (ty : string) : response :=
  (jsonify [("message", unknown_session_type_msg members ty)], 404).

Definition NoOpenSession (workflow_id_or_name : string) : response :=
  (jsonify [("message", no_open_session_msg workflow_id_or_name)], 404).

Definition SessionClosed : response :=
  (jsonify [("message", "The interactive session has been closed")], 200).

Definition SessionOpened (access_path : string) : response :=
  (jsonify [("path", access_path)], 200).

(** A structured outcome: a returned JSON object with one field, a message
    or a path, and one of the documented status codes. *)
Definition is_structured (o : outcome) : bool :=
  match o with
  | Returns ([(k, _)], code) =>
      (String.eqb k "message" || String.eqb k "path")
      && (Z.eqb code 200 || Z.eqb code 400 || Z.eqb code 404 || Z.eqb code 500)
  | _ => false
  end.

Definition status_of (o : outcome) : option Z :=
  match o with
  | Returns (_, code) => Some code
  | Raises_UnboundLocalError _ => None
  end.

Definition outcome_of {W : Type} (r : outcome * W * list event) : outcome :=
  fst (fst r).

Definition calls_of {W : Type} (r : outcome * W * list event) : list event :=
  snd r.

(** Whether the backend was asked to provision, to tear down; whether the
    status of a workflow was read. *)
Definition provision_invoked (cs : list event) : bool := existsb is_start cs.

Definition teardown_invoked (cs : list event) : bool := existsb is_stop cs.

Definition status_inspected (cs : list event) : bool := existsb is_status cs.

(** ** The scenarios of the specification *)

Module Scenario.

(** Modelled from the spec: the record store of the scenarios, the
    workflows it knows and the session rows attached to them by workflow
    identifier. It stands for the tables of [reana_db] that the views
    query. *)
Record Store : Type := {
  workflows : list Workflow;
  session_rows : list (string * Session)
}.

(** Modelled from the spec: the session type enumeration of the scenarios,
    whose valid types include [jupyter]; it is the one member [reana_db]
    declares. *)
Definition InteractiveSessionType : list string := ["jupyter"].

Definition matches (workflow_id_or_name user : string) (w : Workflow) : bool :=
  (String.eqb (wf_id_ w) workflow_id_or_name
   || String.eqb (wf_name w) workflow_id_or_name)
  && String.eqb (wf_owner_id w) user.

(** Modelled from the spec: [resolve(workflow_ref, owner_id)], the workflow
    of that identifier or name owned by that owner, a [ValueError] when
    there is none. *)
Definition get_workflow (s : Store) (workflow_id_or_name user : string)
  : exn + Workflow :=
  match find (matches workflow_id_or_name user) (workflows s) with
  | Some w => inr w
  | None =>
      inl {| exn_class := ValueError;
             exn_str := "Workflow " ++ workflow_id_or_name ++ " does not exist" |}
  end.

(** Modelled from the spec: [Workflow.currentSession()], the first session
    row of the workflow. *)
Definition sessions_first (s : Store) (w : Workflow) : option Session :=
  option_map snd
    (find (fun row => String.eqb (fst row) (wf_id_ w)) (session_rows s)).

Definition new_session_id : string := "dd4e93cf-e6d0-4714-a601-301ed97eec60".

(** Modelled from the spec: [Backend.provision], which persists the session
    row and returns an access path rooted at the generated identifier. *)
Definition start_interactive_session (s : Store) (w : Workflow) (ty : string)
           (image : option string) : Store * (exn + string) :=
  let access_path := "/" ++ new_session_id in
  ({| workflows := workflows s;
      session_rows := session_rows s
                      ++ [(wf_id_ w, {| id_ := new_session_id; type_ := ty;
                                        path := access_path |})] |},
   inr access_path).

(** Modelled from the spec: [Backend.teardown], which removes the session
    row of that identifier. *)
Definition stop_interactive_session (s : Store) (w : Workflow) (session_id : string)
  : Store * (exn + unit) :=
  ({| workflows := workflows s;
      session_rows :=
        filter (fun row => negb (String.eqb (id_ (snd row)) session_id))
               (session_rows s) |},
   inr tt).

(** A backend whose provisioning fails with [e]. *)
Definition failing_start (e : exn) (s : Store) (w : Workflow) (ty : string)
           (image : option string) : Store * (exn + string) :=
  (s, inl e).

Definition W1 : Workflow :=
  {| wf_id_ := "256b25f4-4cfb-4684-b7a8-73872ef455a1"; wf_name := "W1";
     wf_owner_id := "U1"; status := running |}.

Definition W1_deleted : Workflow :=
  {| wf_id_ := "256b25f4-4cfb-4684-b7a8-73872ef455a1"; wf_name := "W1";
     wf_owner_id := "U1"; status := deleted |}.

Definition S1 : Session :=
  {| id_ := new_session_id; type_ := "jupyter"; path := "/" ++ new_session_id |}.

(** Scenario A: [W1], owned by [U1], running, no session. *)
Definition store_A : Store := {| workflows := [W1]; session_rows := [] |}.

(** Scenario C: [W1] with the session opened in scenario A. *)
Definition store_C : Store :=
  {| workflows := [W1]; session_rows := [(wf_id_ W1, S1)] |}.

(** [W1] deleted, without and with a session row left. *)
Definition store_deleted : Store :=
  {| workflows := [W1_deleted]; session_rows := [] |}.

Definition store_deleted_open : Store :=
  {| workflows := [W1_deleted]; session_rows := [(wf_id_ W1_deleted, S1)] |}.

Definition open_ :=
  open_interactive_session InteractiveSessionType get_workflow sessions_first
                           start_interactive_session.

Definition close_ :=
  close_interactive_session get_workflow sessions_first stop_interactive_session.

Definition bad_image : exn :=
  {| exn_class := ValueError; exn_str := "Invalid image name" |}.

Definition cluster_down : exn :=
  {| exn_class := Exception; exn_str := "Kubernetes API unreachable" |}.

End Scenario.

(** ** The views, path by path *)

Section Paths.

Variable World : Type.
Variable members : list string.
Variable get_workflow : World -> string -> string -> exn + Workflow.
Variable sessions_first : World -> Workflow -> option Session.
Variable start_session :
  World -> Workflow -> string -> option string -> World * (exn + string).
Variable stop_session : World -> Workflow -> string -> World * (exn + unit).

(** What the [except] clauses answer once [workflow] holds a workflow. *)
Definition error_after_resolution (e : exn) : response :=
  (jsonify [("message", str e)], if is_key_or_value_error e then 400 else 500).

(** What the [except] clauses do while [workflow] is not assigned. *)
Definition error_while_unbound (e : exn) : outcome :=
  if is_key_or_value_error e then Raises_UnboundLocalError "workflow"
  else Returns (jsonify [("message", str e)], 500).

(** What the [except] clauses answer while [workflow] holds [None]. *)
Definition error_while_none (e : exn) : response :=
  (jsonify [("message", str e)], if is_key_or_value_error e then 404 else 500).

(** [open_interactive_session] path by path, without the monad: the
    session type test, the resolution, the session test, the status test
    and the provisioning, each with the outcome, the world and the calls
    it ends with. *)
Definition open_steps (w : World) (workflow_id_or_name ty user : string)
           (image : option string) : outcome * World * list event :=
  if negb (mem_string ty members) then
    (Returns (UnknownSessionType members ty), w, [])
  else
    match get_workflow w workflow_id_or_name user with
    | inl e => (error_while_unbound e, w, [EvResolve workflow_id_or_name user])
    | inr wf =>
        match sessions_first w wf with
        | Some _ =>
            (Returns SessionAlreadyOpen, w,
             [EvResolve workflow_id_or_name user; EvSessionsFirst wf])
        | None =>
            if RunStatus_eqb (status wf) deleted then
              (Returns WorkflowDeleted, w,
               [EvResolve workflow_id_or_name user; EvSessionsFirst wf; EvStatus wf])
            else
              let '(w', r) := start_session w wf ty image in
              (match r with
               | inr access_path => Returns (SessionOpened access_path)
               | inl e => Returns (error_after_resolution e)
               end,
               w',
               [EvResolve workflow_id_or_name user; EvSessionsFirst wf; EvStatus wf;
                EvStart wf ty image])
        end
    end.

(** [close_interactive_session] path by path, without the monad: the
    owner argument, the resolution, the session lookup and the teardown. *)
Definition close_steps (w : World) (args : list (string * string))
           (workflow_id_or_name : string) : outcome * World * list event :=
  match args_get args "user" with
  | None => (Raises_UnboundLocalError "workflow", w, [])
  | Some user =>
      match get_workflow w workflow_id_or_name user with
      | inl e =>
          (Returns (error_while_none e), w, [EvResolve workflow_id_or_name user])
      | inr wf =>
          match sessions_first w wf with
          | None =>
              (Returns (NoOpenSession workflow_id_or_name), w,
               [EvResolve workflow_id_or_name user; EvSessionsFirst wf])
          | Some s =>
              let '(w', r) := stop_session w wf (id_ s) in
              (match r with
               | inr _ => Returns SessionClosed
               | inl e => Returns (error_after_resolution e)
               end,
               w',
               [EvResolve workflow_id_or_name user; EvSessionsFirst wf;
                EvStop wf (id_ s)])
          end
      end
  end.

End Paths.

Arguments open_steps {World}.
Arguments close_steps {World}.

(** ** What a request reaches *)

(** The world a call of a view leaves. *)
Definition world_of {W : Type} (r : outcome * W * list event) : W :=
  snd (fst r).

Definition is_resolve (ev : event) : bool :=
  match ev with EvResolve _ _ => true | _ => false end.

(** The open request passes the four tests of the view and reaches the
    backend for [wf]: the type is a member, the resolver returns [wf], the
    session lookup returns nothing and the status is not [deleted]. *)
Definition provisioning_reached {World : Type} (members : list string)
           (get_workflow : World -> string -> string -> exn + Workflow)
           (sessions_first : World -> Workflow -> option Session)
           (w : World) (workflow_id_or_name ty user : string) (wf : Workflow) : Prop :=
  mem_string ty members = true
  /\ get_workflow w workflow_id_or_name user = inr wf
  /\ sessions_first w wf = None
  /\ status wf <> deleted.

(** A resolver whose lookup raises [e], whatever is asked. *)
Definition failing_resolver {W : Type} (e : exn) (w : W)
           (workflow_id_or_name user : string) : exn + Workflow :=
  inl e.

(** A backend whose teardown raises [e] and leaves the world as it was. *)
Definition failing_stop {W : Type} (e : exn) (w : W) (wf : Workflow)
           (session_id : string) : W * (exn + unit) :=
  (w, inl e).

Definition database_down : exn :=
  {| exn_class := Exception; exn_str := "could not connect to server" |}.

(** The close request reaches the backend for the session [s] of [wf]: the
    query carries [user], the resolver returns [wf] for it and the session
    lookup returns [s]. *)
Definition teardown_reached {World : Type}
           (get_workflow : World -> string -> string -> exn + Workflow)
           (sessions_first : World -> Workflow -> option Session)
           (w : World) (args : list (string * string))
           (workflow_id_or_name user : string) (wf : Workflow) (s : Session) : Prop :=
  args_get args "user" = Some user
  /\ get_workflow w workflow_id_or_name user = inr wf
  /\ sessions_first w wf = Some s.

(** ** Properties *)

(** *** The rendering of the enumeration *)

Section Rendering.

Lemma append_assoc (a b c : string) : (a ++ b) ++ c = a ++ (b ++ c).
Proof. induction a as [|ch a IH]; cbn; [reflexivity | now rewrite IH]. Qed.

(** In a quoted name the closing quote is the first quote met. *)
Lemma closing_quote_unique s1 :
  forall s2 r1 r2,
    quote_free s1 = true -> quote_free s2 = true ->
    s1 ++ String "'" r1 = s2 ++ String "'" r2 ->
    s1 = s2 /\ r1 = r2.
Proof.
  induction s1 as [|c1 s1 IH]; intros [|c2 s2] r1 r2 H1 H2 Heq; cbn in *.
  - inversion Heq. auto.
  - inversion Heq; subst. cbn in H2. discriminate.
  - inversion Heq; subst. cbn in H1. discriminate.
  - inversion Heq; subst.
    apply andb_prop in H1 as [_ H1]. apply andb_prop in H2 as [_ H2].
    destruct (IH s2 r1 r2 H1 H2 H3) as [-> ->]. auto.
Qed.

Lemma listing_tail_cons x l :
  listing_tail (x :: l)
  = String "'" (x ++ String "'" (match l with
                                  | [] => "]"
                                  | _ :: _ => ", " ++ listing_tail l
                                  end)).
Proof.
  unfold listing_tail. destruct l as [|y l]; cbn [map join].
  - unfold py_repr. cbn. now rewrite append_assoc.
  - unfold py_repr at 1. cbn. rewrite !append_assoc. cbn. reflexivity.
Qed.

Lemma listing_tail_inj l1 :
  forall l2,
    forallb quote_free l1 = true -> forallb quote_free l2 = true ->
    listing_tail l1 = listing_tail l2 -> l1 = l2.
Proof.
  induction l1 as [|x1 l1 IH]; intros [|x2 l2] H1 H2 Heq.
  - reflexivity.
  - rewrite listing_tail_cons in Heq. discriminate.
  - rewrite listing_tail_cons in Heq. discriminate.
  - rewrite !listing_tail_cons in Heq. inversion Heq as [Htail].
    cbn in H1, H2.
    apply andb_prop in H1 as [Hx1 H1]. apply andb_prop in H2 as [Hx2 H2].
    destruct (closing_quote_unique _ _ _ _ Hx1 Hx2 Htail) as [-> Hrest].
    f_equal.
    destruct l1 as [|y1 l1], l2 as [|y2 l2]; try discriminate; [reflexivity|].
    cbn in Hrest. inversion Hrest. apply IH; assumption.
Qed.

(** Two lists of identifiers that render alike are the same list. *)
Lemma py_repr_list_inj l1 l2 :
  forallb quote_free l1 = true -> forallb quote_free l2 = true ->
  py_repr_list l1 = py_repr_list l2 -> l1 = l2.
Proof.
  intros H1 H2 Heq. unfold py_repr_list in Heq. cbn in Heq.
  inversion Heq. apply listing_tail_inj; assumption.
Qed.

(** The membership test accepts the listed names and no other. *)
Lemma mem_string_In s l : mem_string s l = true <-> In s l.
Proof.
  unfold mem_string. rewrite existsb_exists. split.
  - intros [x [Hin Heq]]. apply String.eqb_eq in Heq. now subst.
  - intros Hin. exists s. split; [assumption | apply String.eqb_refl].
Qed.

End Rendering.

(** *** The views *)

Section Properties.

Variable World : Type.
Variable members : list string.
Variable get_workflow : World -> string -> string -> exn + Workflow.
Variable sessions_first : World -> Workflow -> option Session.
Variable start_session :
  World -> Workflow -> string -> option string -> World * (exn + string).
Variable stop_session : World -> Workflow -> string -> World * (exn + unit).

Local Abbreviation open_ :=
  (open_interactive_session members get_workflow sessions_first start_session).
Local Abbreviation close_ :=
  (close_interactive_session get_workflow sessions_first stop_session).

(** The monadic view and its paths agree on every input. *)
Lemma open_interactive_session_paths w workflow_id_or_name ty user image :
  open_ w workflow_id_or_name ty user image
  = open_steps members get_workflow sessions_first start_session
               w workflow_id_or_name ty user image.
Proof.
  unfold open_interactive_session, open_steps, call, try_except, open_body,
    resolve, first_session, get_status, start, assign_workflow, log, bind, ret,
    lift_result, raise, except_clauses.
  destruct (mem_string ty members); cbn; [|reflexivity].
  destruct (get_workflow w workflow_id_or_name user) as [e|wf]; cbn.
  - unfold error_while_unbound, is_key_or_value_error.
    destruct (exn_class e); reflexivity.
  - destruct (sessions_first w wf) as [s|]; cbn; [reflexivity|].
    destruct (RunStatus_eqb (status wf) deleted); cbn; [reflexivity|].
    destruct (start_session w wf ty image) as [w' [e|access_path]]; cbn.
    + unfold error_after_resolution, is_key_or_value_error.
      destruct (exn_class e); reflexivity.
    + reflexivity.
Qed.

Lemma close_interactive_session_paths w args workflow_id_or_name :
  close_ w args workflow_id_or_name
  = close_steps get_workflow sessions_first stop_session w args workflow_id_or_name.
Proof.
  unfold close_interactive_session, close_steps, call, try_except, close_body,
    request_args, resolve, first_session, stop, assign_workflow, log, bind, ret,
    lift_result, raise, except_clauses.
  destruct (args_get args "user") as [user|]; cbn; [|reflexivity].
  destruct (get_workflow w workflow_id_or_name user) as [e|wf]; cbn.
  - unfold error_while_none, is_key_or_value_error.
    destruct (exn_class e); reflexivity.
  - destruct (sessions_first w wf) as [s|]; cbn; [|reflexivity].
    destruct (stop_session w wf (id_ s)) as [w' [e|[]]]; cbn.
    + unfold error_after_resolution, is_key_or_value_error.
      destruct (exn_class e); reflexivity.
    + reflexivity.
Qed.

Lemma RunStatus_eqb_eq a b : RunStatus_eqb a b = true <-> a = b.
Proof. destruct a, b; cbn; split; congruence. Qed.

Lemma RunStatus_eqb_neq a b : a <> b -> RunStatus_eqb a b = false.
Proof.
  intros Hne. destruct (RunStatus_eqb a b) eqn:E; [|reflexivity].
  apply RunStatus_eqb_eq in E. contradiction.
Qed.

(** C1 (defect of the open view). A reference that does not resolve for
    the owner is signalled by the resolver with a [ValueError] (or a
    [KeyError]).  The close view answers it with the not-found outcome,
    status 404 and the resolver's message.  The open view does not: its
    local [workflow] is not assigned before the resolver is called, so the
    [except] clause that computes [400 if workflow else 404] raises an
    [UnboundLocalError], which leaves the view. *)
Theorem unresolved_workflow_close_404_open_unbound
        w args workflow_id_or_name ty user image e :
  get_workflow w workflow_id_or_name user = inl e ->
  is_key_or_value_error e = true ->
  args_get args "user" = Some user ->
  mem_string ty members = true ->
  close_ w args workflow_id_or_name
  = (Returns (WorkflowNotFound e), w, [EvResolve workflow_id_or_name user])
  /\ open_ w workflow_id_or_name ty user image
     = (Raises_UnboundLocalError "workflow", w, [EvResolve workflow_id_or_name user]).
Proof.
  intros Hres Hcls Huser Hmem. split.
  - rewrite close_interactive_session_paths. unfold close_steps.
    rewrite Huser, Hres. unfold error_while_none, WorkflowNotFound.
    rewrite Hcls. reflexivity.
  - rewrite open_interactive_session_paths. unfold open_steps.
    rewrite Hmem, Hres. unfold error_while_unbound. rewrite Hcls. reflexivity.
Qed.

(** C2 (same defect). A view ends without a structured outcome exactly
    when an [except] clause reads [workflow] before it is assigned: in
    open, when the session type is valid and the resolver raises a
    [KeyError] or a [ValueError]; in close, when the query carries no
    [user] argument.  On every other input both views return one JSON
    field, [message] or [path], with status 200, 400, 404 or 500. *)
Theorem unstructured_outcome_iff w args workflow_id_or_name ty user image :
  (is_structured (outcome_of (open_ w workflow_id_or_name ty user image)) = false
   <-> mem_string ty members = true
       /\ exists e, get_workflow w workflow_id_or_name user = inl e
                    /\ is_key_or_value_error e = true)
  /\ (is_structured (outcome_of (close_ w args workflow_id_or_name)) = false
      <-> args_get args "user" = None).
Proof.
  split.
  - rewrite open_interactive_session_paths. unfold open_steps.
    destruct (mem_string ty members); cbn.
    2:{ split; [discriminate | intros [H _]; discriminate]. }
    destruct (get_workflow w workflow_id_or_name user) as [e|wf]; cbn.
    + unfold error_while_unbound.
      destruct (is_key_or_value_error e) eqn:He; cbn.
      * split; [intros _; split; [reflexivity | exists e; auto] | reflexivity].
      * split; [discriminate |].
        intros [_ [e' [He' Hc]]]. inversion He'; subst. congruence.
    + assert (Hno : ~ (true = true /\ exists e : exn,
                          @inr exn Workflow wf = inl e
                          /\ is_key_or_value_error e = true)).
      { intros [_ [e [He _]]]. discriminate. }
      destruct (sessions_first w wf); cbn.
      { split; [discriminate | intros H; destruct (Hno H)]. }
      destruct (RunStatus_eqb (status wf) deleted); cbn.
      { split; [discriminate | intros H; destruct (Hno H)]. }
      destruct (start_session w wf ty image) as [w' [e|access_path]]; cbn.
      * unfold error_after_resolution.
        destruct (is_key_or_value_error e); cbn;
          (split; [discriminate | intros H; destruct (Hno H)]).
      * split; [discriminate | intros H; destruct (Hno H)].
  - rewrite close_interactive_session_paths. unfold close_steps.
    destruct (args_get args "user") as [u|]; cbn; [|split; reflexivity].
    destruct (get_workflow w workflow_id_or_name u) as [e|wf]; cbn.
    + unfold error_while_none.
      destruct (is_key_or_value_error e); cbn; split; discriminate.
    + destruct (sessions_first w wf) as [s|]; cbn; [|split; discriminate].
      destruct (stop_session w wf (id_ s)) as [w' [e|[]]]; cbn.
      * unfold error_after_resolution.
        destruct (is_key_or_value_error e); cbn; split; discriminate.
      * split; discriminate.
Qed.

(** C3 (amended). For every workflow that resolves with status [deleted],
    open never provisions and answers 404: with [WorkflowDeleted] when
    the session type is a member of the enumeration and the workflow has
    no session, with the unknown-session-type outcome when the type is
    not a member, and with [SessionAlreadyOpen] when it is a member and a
    session exists. *)
Theorem deleted_workflow_open_fails w workflow_id_or_name ty user image wf :
  get_workflow w workflow_id_or_name user = inr wf ->
  status wf = deleted ->
  exists cs,
    open_ w workflow_id_or_name ty user image
    = (Returns (if negb (mem_string ty members) then UnknownSessionType members ty
                else if truthy (sessions_first w wf) then SessionAlreadyOpen
                     else WorkflowDeleted),
       w, cs)
    /\ provision_invoked cs = false.
Proof.
  intros Hres Hdel.
  rewrite open_interactive_session_paths. unfold open_steps.
  destruct (mem_string ty members); cbn.
  2:{ eexists; split; reflexivity. }
  rewrite Hres.
  destruct (sessions_first w wf); cbn.
  { eexists; split; reflexivity. }
  rewrite Hdel. cbn. eexists; split; reflexivity.
Qed.

(** C4 (amended). For every workflow that resolves and already has a
    session, open answers 404 and never provisions: with
    [SessionAlreadyOpen] when the session type is a member of the
    enumeration, with the unknown-session-type outcome, before any
    resolution, when it is not. *)
Theorem existing_session_open_fails w workflow_id_or_name ty user image wf s :
  get_workflow w workflow_id_or_name user = inr wf ->
  sessions_first w wf = Some s ->
  exists cs,
    open_ w workflow_id_or_name ty user image
    = (Returns (if mem_string ty members then SessionAlreadyOpen
                else UnknownSessionType members ty),
       w, cs)
    /\ provision_invoked cs = false
    /\ status_of (outcome_of (open_ w workflow_id_or_name ty user image)) = Some 404.
Proof.
  intros Hres Hses.
  rewrite open_interactive_session_paths. unfold open_steps.
  destruct (mem_string ty members); cbn.
  - rewrite Hres, Hses. eexists; repeat split; reflexivity.
  - eexists; repeat split; reflexivity.
Qed.

(** C5. For every workflow that resolves for the owner and has no session,
    close answers [NoOpenSession]: status 404, a message naming the
    workflow reference, and no teardown call.  In particular, once a
    close has succeeded and its teardown has left the workflow without a
    session row, the next close answers [NoOpenSession] and tears nothing
    down. *)
Theorem close_without_session_fails :
  (forall w args workflow_id_or_name user wf,
      args_get args "user" = Some user ->
      get_workflow w workflow_id_or_name user = inr wf ->
      sessions_first w wf = None ->
      close_ w args workflow_id_or_name
      = (Returns (jsonify [("message",
                            "Workflow - " ++ workflow_id_or_name
                            ++ " has no open interactive session.")], 404),
         w, [EvResolve workflow_id_or_name user; EvSessionsFirst wf])
      /\ teardown_invoked (calls_of (close_ w args workflow_id_or_name)) = false)
  /\ (forall w args workflow_id_or_name user wf w' cs,
         args_get args "user" = Some user ->
         get_workflow w workflow_id_or_name user = inr wf ->
         close_ w args workflow_id_or_name = (Returns SessionClosed, w', cs) ->
         get_workflow w' workflow_id_or_name user = inr wf ->
         sessions_first w' wf = None ->
         teardown_invoked cs = true
         /\ close_ w' args workflow_id_or_name
            = (Returns (NoOpenSession workflow_id_or_name), w',
               [EvResolve workflow_id_or_name user; EvSessionsFirst wf])
         /\ teardown_invoked (calls_of (close_ w' args workflow_id_or_name)) = false).
Proof.
  assert (Hfirst : forall w args workflow_id_or_name user wf,
             args_get args "user" = Some user ->
             get_workflow w workflow_id_or_name user = inr wf ->
             sessions_first w wf = None ->
             close_ w args workflow_id_or_name
             = (Returns (NoOpenSession workflow_id_or_name), w,
                [EvResolve workflow_id_or_name user; EvSessionsFirst wf])).
  { intros w args ref user wf Huser Hres Hnone.
    rewrite close_interactive_session_paths. unfold close_steps.
    rewrite Huser, Hres, Hnone. reflexivity. }
  split.
  - intros w args ref user wf Huser Hres Hnone.
    rewrite (Hfirst _ _ _ _ _ Huser Hres Hnone). split; reflexivity.
  - intros w args ref user wf w' cs Huser Hres Hclose Hres' Hnone'.
    split.
    + rewrite close_interactive_session_paths in Hclose. unfold close_steps in Hclose.
      rewrite Huser, Hres in Hclose.
      destruct (sessions_first w wf) as [s|]; [|discriminate Hclose].
      destruct (stop_session w wf (id_ s)) as [w1 r].
      inversion Hclose; subst. reflexivity.
    + rewrite (Hfirst _ _ _ _ _ Huser Hres' Hnone'). split; reflexivity.
Qed.

(** C6. For every session type that is not a member of the enumeration,
    open answers 404 with the message that carries the rejected value and
    the rendering of the whole list of member names, in order; it makes
    no call at all, to the resolver or to the backend, and leaves the
    world as it was.  The names rendered are exactly those the membership
    test accepts, and, member names being identifiers, no other list of
    names renders to the same text. *)
Theorem unknown_session_type_rejected w workflow_id_or_name ty user image :
  mem_string ty members = false ->
  open_ w workflow_id_or_name ty user image
  = (Returns (jsonify [("message",
                        "Interactive session type " ++ ty
                        ++ " not found, try with one of: "
                        ++ py_repr_list members)],
              404),
     w, [])
  /\ (forall name, In name members <-> mem_string name members = true)
  /\ (forall others,
         forallb quote_free members = true ->
         forallb quote_free others = true ->
         py_repr_list others = py_repr_list members ->
         others = members).
Proof.
  intros Hmem. split; [|split].
  - rewrite open_interactive_session_paths. unfold open_steps.
    rewrite Hmem. reflexivity.
  - intros name. symmetry. apply mem_string_In.
  - intros others Hm Ho Heq. apply py_repr_list_inj; assumption.
Qed.

(** C7 (amended). Every error the backend raises while provisioning is
    answered with the error's own description as the message; the status
    is 500, except for a [KeyError] or a [ValueError], which the first
    [except] clause answers with 400 because the workflow was resolved. *)
Theorem provisioning_error_reported w workflow_id_or_name ty user image wf w' e :
  mem_string ty members = true ->
  get_workflow w workflow_id_or_name user = inr wf ->
  sessions_first w wf = None ->
  status wf <> deleted ->
  start_session w wf ty image = (w', inl e) ->
  open_ w workflow_id_or_name ty user image
  = (Returns (jsonify [("message", str e)],
              if is_key_or_value_error e then 400 else 500),
     w',
     [EvResolve workflow_id_or_name user; EvSessionsFirst wf; EvStatus wf;
      EvStart wf ty image]).
Proof.
  intros Hmem Hres Hnone Hst Hstart.
  rewrite open_interactive_session_paths. unfold open_steps.
  rewrite Hmem, Hres, Hnone, (RunStatus_eqb_neq _ _ Hst), Hstart. reflexivity.
Qed.

(** C8. Open validates in a fixed order and stops at the first failure:
    (1) a session type outside the enumeration is rejected before any
    call; (2) a resolver failure ends the view before the session lookup;
    (3) an existing session gives [SessionAlreadyOpen] before the status
    is read, so also for a deleted workflow; (4) a deleted workflow
    without session gives [WorkflowDeleted] before the backend is called;
    (5) the backend is asked to provision exactly when the type is a
    member, the workflow resolves, has no session and is not deleted, and
    then as the last of the four calls. *)
Theorem open_validation_order w workflow_id_or_name ty user image :
  (mem_string ty members = false ->
   open_ w workflow_id_or_name ty user image
   = (Returns (UnknownSessionType members ty), w, []))
  /\ (forall e,
         mem_string ty members = true ->
         get_workflow w workflow_id_or_name user = inl e ->
         calls_of (open_ w workflow_id_or_name ty user image)
         = [EvResolve workflow_id_or_name user])
  /\ (forall wf s,
         mem_string ty members = true ->
         get_workflow w workflow_id_or_name user = inr wf ->
         sessions_first w wf = Some s ->
         open_ w workflow_id_or_name ty user image
         = (Returns SessionAlreadyOpen, w,
            [EvResolve workflow_id_or_name user; EvSessionsFirst wf]))
  /\ (forall wf,
         mem_string ty members = true ->
         get_workflow w workflow_id_or_name user = inr wf ->
         sessions_first w wf = None ->
         status wf = deleted ->
         open_ w workflow_id_or_name ty user image
         = (Returns WorkflowDeleted, w,
            [EvResolve workflow_id_or_name user; EvSessionsFirst wf; EvStatus wf]))
  /\ (provision_invoked (calls_of (open_ w workflow_id_or_name ty user image)) = true
      <-> mem_string ty members = true
          /\ exists wf,
              get_workflow w workflow_id_or_name user = inr wf
              /\ sessions_first w wf = None
              /\ status wf <> deleted
              /\ calls_of (open_ w workflow_id_or_name ty user image)
                 = [EvResolve workflow_id_or_name user; EvSessionsFirst wf;
                    EvStatus wf; EvStart wf ty image]).
Proof.
  rewrite open_interactive_session_paths. unfold open_steps.
  split; [|split; [|split; [|split; [|split]]]].
  - intros Hmem. rewrite Hmem. reflexivity.
  - intros e Hmem Hres. rewrite Hmem, Hres. reflexivity.
  - intros wf s Hmem Hres Hses. rewrite Hmem, Hres, Hses. reflexivity.
  - intros wf Hmem Hres Hnone Hdel. rewrite Hmem, Hres, Hnone, Hdel. reflexivity.
  - destruct (mem_string ty members); cbn; [|discriminate].
    destruct (get_workflow w workflow_id_or_name user) as [e|wf]; cbn;
      [discriminate|].
    destruct (sessions_first w wf) eqn:Hses; cbn; [discriminate|].
    destruct (RunStatus_eqb (status wf) deleted) eqn:Hst; cbn; [discriminate|].
    intros _. split; [reflexivity|]. exists wf.
    split; [reflexivity|]. split; [exact Hses|]. split.
    + intros Hdel. rewrite Hdel in Hst. discriminate.
    + destruct (start_session w wf ty image). reflexivity.
  - intros [Hmem [wf [Hres [Hnone [Hst _]]]]].
    rewrite Hmem, Hres, Hnone, (RunStatus_eqb_neq _ _ Hst). cbn.
    destruct (start_session w wf ty image). reflexivity.
Qed.

(** C9. For every close request with the owner argument, on a workflow
    that resolves for that owner and has a session whose teardown
    succeeds, the view returns status 200 and exactly the body
    [{"message": "The interactive session has been closed"}], after
    the resolver, the session lookup and the teardown of that session. *)
Theorem close_success w args workflow_id_or_name user wf s w' :
  args_get args "user" = Some user ->
  get_workflow w workflow_id_or_name user = inr wf ->
  sessions_first w wf = Some s ->
  stop_session w wf (id_ s) = (w', inr tt) ->
  close_ w args workflow_id_or_name
  = (Returns (jsonify [("message", "The interactive session has been closed")], 200),
     w',
     [EvResolve workflow_id_or_name user; EvSessionsFirst wf; EvStop wf (id_ s)]).
Proof.
  intros Huser Hres Hses Hstop.
  rewrite close_interactive_session_paths. unfold close_steps.
  rewrite Huser, Hres, Hses, Hstop. reflexivity.
Qed.

(** C10. Close never reads the status of the workflow.  For every
    workflow that resolves for the owner and has a session, whatever its
    status, [deleted] included, the teardown of that session is invoked
    and the view answers by the result of the teardown alone: it succeeds
    with status 200 as soon as the teardown returns, and reports the
    teardown's own error otherwise. *)
Theorem close_ignores_status :
  (forall w args workflow_id_or_name,
      status_inspected (calls_of (close_ w args workflow_id_or_name)) = false)
  /\ (forall w args workflow_id_or_name user wf s,
         args_get args "user" = Some user ->
         get_workflow w workflow_id_or_name user = inr wf ->
         sessions_first w wf = Some s ->
         calls_of (close_ w args workflow_id_or_name)
         = [EvResolve workflow_id_or_name user; EvSessionsFirst wf; EvStop wf (id_ s)]
         /\ teardown_invoked (calls_of (close_ w args workflow_id_or_name)) = true
         /\ (forall w',
                stop_session w wf (id_ s) = (w', inr tt) ->
                close_ w args workflow_id_or_name
                = (Returns SessionClosed, w',
                   [EvResolve workflow_id_or_name user; EvSessionsFirst wf;
                    EvStop wf (id_ s)]))
         /\ (forall w' e,
                stop_session w wf (id_ s) = (w', inl e) ->
                outcome_of (close_ w args workflow_id_or_name)
                = Returns (error_after_resolution e))).
Proof.
  split.
  - intros w args ref.
    rewrite close_interactive_session_paths. unfold close_steps.
    destruct (args_get args "user") as [u|]; [|reflexivity].
    destruct (get_workflow w ref u) as [e|wf]; [reflexivity|].
    destruct (sessions_first w wf) as [s|]; [|reflexivity].
    destruct (stop_session w wf (id_ s)). reflexivity.
  - intros w args ref user wf s Huser Hres Hses.
    rewrite close_interactive_session_paths. unfold close_steps.
    rewrite Huser, Hres, Hses.
    destruct (stop_session w wf (id_ s)) as [w1 r].
    split; [reflexivity|]. split; [reflexivity|]. split.
    + intros w' Hstop. inversion Hstop; subst. reflexivity.
    + intros w' e Hstop. inversion Hstop; subst. reflexivity.
Qed.

End Properties.

(** ** The properties on the scenarios *)

Section Scenarios.

Import Scenario.

(** Scenario E: [W2] does not resolve for [U1]. Close answers 404; open
    leaves by the [UnboundLocalError]. *)
Lemma unresolved_workflow_scenario :
  close_ store_A [("user", "U1")] "W2"
  = (Returns (jsonify [("message", "Workflow W2 does not exist")], 404),
     store_A, [EvResolve "W2" "U1"])
  /\ open_ store_A "W2" "jupyter" "U1" None
     = (Raises_UnboundLocalError "workflow", store_A, [EvResolve "W2" "U1"]).
Proof.
  apply (unresolved_workflow_close_404_open_unbound
           Store InteractiveSessionType get_workflow sessions_first
           start_interactive_session stop_interactive_session
           store_A [("user", "U1")] "W2" "jupyter" "U1" None
           {| exn_class := ValueError; exn_str := "Workflow W2 does not exist" |});
    reflexivity.
Defined.

(** The two requests that end without a structured outcome. *)
Lemma unstructured_outcome_scenario :
  is_structured (outcome_of (open_ store_A "W2" "jupyter" "U1" None)) = false
  /\ is_structured (outcome_of (close_ store_A [] "W1")) = false.
Proof.
  destruct (unstructured_outcome_iff
              Store InteractiveSessionType get_workflow sessions_first
              start_interactive_session stop_interactive_session
              store_A [] "W2" "jupyter" "U1" None) as [[_ Hopen] _].
  destruct (unstructured_outcome_iff
              Store InteractiveSessionType get_workflow sessions_first
              start_interactive_session stop_interactive_session
              store_A [] "W1" "jupyter" "U1" None) as [_ [_ Hclose]].
  split.
  - apply Hopen. split; [reflexivity|].
    exists {| exn_class := ValueError; exn_str := "Workflow W2 does not exist" |}.
    split; reflexivity.
  - apply Hclose. reflexivity.
Defined.

(** C3 as stated fails: a deleted workflow asked for the unknown type
    [terminl] is answered with the unknown-session-type outcome, and a
    deleted workflow that still has a session with [SessionAlreadyOpen]. *)
Lemma deleted_workflow_counterexample :
  get_workflow store_deleted "W1" "U1" = inr W1_deleted
  /\ get_workflow store_deleted_open "W1" "U1" = inr W1_deleted
  /\ status W1_deleted = deleted
  /\ outcome_of (open_ store_deleted "W1" "terminl" "U1" None)
     = Returns (jsonify [("message",
                          "Interactive session type terminl not found, try with one of: ['jupyter']")],
                404)
  /\ outcome_of (open_ store_deleted "W1" "terminl" "U1" None)
     <> Returns WorkflowDeleted
  /\ outcome_of (open_ store_deleted_open "W1" "jupyter" "U1" None)
     = Returns SessionAlreadyOpen
  /\ outcome_of (open_ store_deleted_open "W1" "jupyter" "U1" None)
     <> Returns WorkflowDeleted.
Proof.
  repeat split; try reflexivity; vm_compute; intros H; discriminate H.
Qed.

Lemma deleted_workflow_scenario :
  get_workflow store_deleted "W1" "U1" = inr W1_deleted
  /\ status W1_deleted = deleted
  /\ exists cs,
      open_ store_deleted "W1" "jupyter" "U1" None
      = (Returns WorkflowDeleted, store_deleted, cs)
      /\ provision_invoked cs = false.
Proof.
  split; [reflexivity|]. split; [reflexivity|].
  apply (deleted_workflow_open_fails
           Store InteractiveSessionType get_workflow sessions_first
           start_interactive_session
           store_deleted "W1" "jupyter" "U1" None W1_deleted);
    reflexivity.
Defined.

(** C4 as stated fails: scenario C asked for the unknown type [terminl]
    is answered with the unknown-session-type outcome. *)
Lemma existing_session_counterexample :
  get_workflow store_C "W1" "U1" = inr W1
  /\ sessions_first store_C W1 = Some S1
  /\ outcome_of (open_ store_C "W1" "terminl" "U1" None)
     = Returns (jsonify [("message",
                          "Interactive session type terminl not found, try with one of: ['jupyter']")],
                404)
  /\ outcome_of (open_ store_C "W1" "terminl" "U1" None)
     <> Returns SessionAlreadyOpen.
Proof.
  repeat split; try reflexivity; vm_compute; intros H; discriminate H.
Qed.

(** Scenario C. *)
Lemma existing_session_scenario :
  get_workflow store_C "W1" "U1" = inr W1
  /\ sessions_first store_C W1 = Some S1
  /\ exists cs,
      open_ store_C "W1" "jupyter" "U1" None
      = (Returns SessionAlreadyOpen, store_C, cs)
      /\ provision_invoked cs = false
      /\ status_of (outcome_of (open_ store_C "W1" "jupyter" "U1" None)) = Some 404.
Proof.
  split; [reflexivity|]. split; [reflexivity|].
  apply (existing_session_open_fails
           Store InteractiveSessionType get_workflow sessions_first
           start_interactive_session
           store_C "W1" "jupyter" "U1" None W1 S1);
    reflexivity.
Defined.

(** Scenario D: a close on scenario A has no session to close; a close on
    scenario C succeeds, leaves the store of scenario A, and the next
    close has no session to close. *)
Lemma close_without_session_scenario :
  (close_ store_A [("user", "U1")] "W1"
   = (Returns (jsonify [("message",
                         "Workflow - W1 has no open interactive session.")], 404),
      store_A, [EvResolve "W1" "U1"; EvSessionsFirst W1])
   /\ teardown_invoked (calls_of (close_ store_A [("user", "U1")] "W1")) = false)
  /\ close_ store_C [("user", "U1")] "W1"
     = (Returns SessionClosed, store_A,
        [EvResolve "W1" "U1"; EvSessionsFirst W1; EvStop W1 new_session_id])
  /\ close_ store_A [("user", "U1")] "W1"
     = (Returns (NoOpenSession "W1"), store_A,
        [EvResolve "W1" "U1"; EvSessionsFirst W1]).
Proof.
  destruct (close_without_session_fails
              Store get_workflow sessions_first stop_interactive_session)
    as [Hfirst Hsecond].
  split; [|split].
  - apply (Hfirst store_A [("user", "U1")] "W1" "U1" W1); reflexivity.
  - reflexivity.
  - apply (Hsecond store_C [("user", "U1")] "W1" "U1" W1 store_A
                   [EvResolve "W1" "U1"; EvSessionsFirst W1;
                    EvStop W1 new_session_id]);
      reflexivity.
Defined.

(** Scenario B: the typo [terminl]. *)
Lemma unknown_session_type_scenario :
  mem_string "terminl" InteractiveSessionType = false
  /\ open_ store_A "W1" "terminl" "U1" None
     = (Returns (jsonify [("message",
                           "Interactive session type terminl not found, try with one of: ['jupyter']")],
                 404),
        store_A, [])
  /\ (In "jupyter" InteractiveSessionType
      <-> mem_string "jupyter" InteractiveSessionType = true)
  /\ (py_repr_list ["jupyter"] = py_repr_list InteractiveSessionType ->
      ["jupyter"] = InteractiveSessionType).
Proof.
  destruct (unknown_session_type_rejected
              Store InteractiveSessionType get_workflow sessions_first
              start_interactive_session store_A "W1" "terminl" "U1" None)
    as [Hopen [Hmem Hlist]]; [reflexivity|].
  split; [reflexivity|]. split; [exact Hopen|]. split; [apply Hmem|].
  apply Hlist; reflexivity.
Defined.

(** C7 as stated fails: a backend that raises a [ValueError] while
    provisioning for scenario A is answered with status 400, not 500. *)
Lemma provisioning_value_error_counterexample :
  failing_start bad_image store_A W1 "jupyter" None = (store_A, inl bad_image)
  /\ open_interactive_session InteractiveSessionType get_workflow sessions_first
                              (failing_start bad_image)
                              store_A "W1" "jupyter" "U1" None
     = (Returns (jsonify [("message", "Invalid image name")], 400), store_A,
        [EvResolve "W1" "U1"; EvSessionsFirst W1; EvStatus W1;
         EvStart W1 "jupyter" None])
  /\ status_of
       (outcome_of
          (open_interactive_session InteractiveSessionType get_workflow
                                    sessions_first (failing_start bad_image)
                                    store_A "W1" "jupyter" "U1" None))
     <> Some 500.
Proof.
  repeat split; try reflexivity; vm_compute; intros H; discriminate H.
Qed.

Lemma provisioning_error_scenario :
  failing_start cluster_down store_A W1 "jupyter" None = (store_A, inl cluster_down)
  /\ open_interactive_session InteractiveSessionType get_workflow sessions_first
                              (failing_start cluster_down)
                              store_A "W1" "jupyter" "U1" None
     = (Returns (jsonify [("message", "Kubernetes API unreachable")], 500), store_A,
        [EvResolve "W1" "U1"; EvSessionsFirst W1; EvStatus W1;
         EvStart W1 "jupyter" None]).
Proof.
  split; [reflexivity|].
  apply (provisioning_error_reported
           Store InteractiveSessionType get_workflow sessions_first
           (failing_start cluster_down)
           store_A "W1" "jupyter" "U1" None W1 store_A cluster_down);
    try reflexivity.
  discriminate.
Defined.

(** The order of the validations on the scenarios: the typo on a store
    that would fail every later test, the session before the status, the
    status before the backend, and the backend on scenario A only. *)
Lemma open_validation_order_scenario :
  open_ store_deleted_open "W2" "terminl" "U1" None
  = (Returns (UnknownSessionType InteractiveSessionType "terminl"),
     store_deleted_open, [])
  /\ calls_of (open_ store_A "W2" "jupyter" "U1" None) = [EvResolve "W2" "U1"]
  /\ open_ store_deleted_open "W1" "jupyter" "U1" None
     = (Returns SessionAlreadyOpen, store_deleted_open,
        [EvResolve "W1" "U1"; EvSessionsFirst W1_deleted])
  /\ open_ store_deleted "W1" "jupyter" "U1" None
     = (Returns WorkflowDeleted, store_deleted,
        [EvResolve "W1" "U1"; EvSessionsFirst W1_deleted; EvStatus W1_deleted])
  /\ provision_invoked (calls_of (open_ store_A "W1" "jupyter" "U1" None)) = true.
Proof.
  pose proof (open_validation_order
                Store InteractiveSessionType get_workflow sessions_first
                start_interactive_session) as Horder.
  split; [|split; [|split; [|split]]].
  - apply (Horder store_deleted_open "W2" "terminl" "U1" None). reflexivity.
  - apply (proj1 (proj2 (Horder store_A "W2" "jupyter" "U1" None))
                 {| exn_class := ValueError;
                    exn_str := "Workflow W2 does not exist" |});
      reflexivity.
  - apply (proj1 (proj2 (proj2 (Horder store_deleted_open "W1" "jupyter" "U1" None)))
                 W1_deleted S1);
      reflexivity.
  - apply (proj1 (proj2 (proj2 (proj2
                   (Horder store_deleted "W1" "jupyter" "U1" None))))
                 W1_deleted);
      reflexivity.
  - apply (proj2 (proj2 (proj2 (proj2 (Horder store_A "W1" "jupyter" "U1" None))))).
    split; [reflexivity|].
    exists W1. repeat split; try reflexivity. discriminate.
Defined.

(** Scenario D, the successful close. *)
Lemma close_success_scenario :
  stop_interactive_session store_C W1 (id_ S1) = (store_A, inr tt)
  /\ close_ store_C [("user", "U1")] "W1"
     = (Returns (jsonify [("message", "The interactive session has been closed")],
                 200),
        store_A, [EvResolve "W1" "U1"; EvSessionsFirst W1; EvStop W1 (id_ S1)]).
Proof.
  split; [reflexivity|].
  apply (close_success Store get_workflow sessions_first stop_interactive_session
                       store_C [("user", "U1")] "W1" "U1" W1 S1 store_A);
    reflexivity.
Defined.

(** A deleted workflow with a session: close tears the session down and
    succeeds. *)
Lemma close_ignores_status_scenario :
  status W1_deleted = deleted
  /\ status_inspected (calls_of (close_ store_deleted_open [("user", "U1")] "W1"))
     = false
  /\ teardown_invoked (calls_of (close_ store_deleted_open [("user", "U1")] "W1"))
     = true
  /\ close_ store_deleted_open [("user", "U1")] "W1"
     = (Returns SessionClosed, store_deleted,
        [EvResolve "W1" "U1"; EvSessionsFirst W1_deleted;
         EvStop W1_deleted (id_ S1)]).
Proof.
  destruct (close_ignores_status
              Store get_workflow sessions_first stop_interactive_session)
    as [Hnever Hclose].
  destruct (Hclose store_deleted_open [("user", "U1")] "W1" "U1" W1_deleted S1)
    as [_ [Hinvoked [Hok _]]]; try reflexivity.
  split; [reflexivity|]. split; [apply Hnever|]. split; [exact Hinvoked|].
  apply Hok. reflexivity.
Defined.

End Scenarios.

(** ** The outcomes of the views, status by status *)

Section Coverage.

Variable World : Type.
Variable members : list string.
Variable get_workflow : World -> string -> string -> exn + Workflow.
Variable sessions_first : World -> Workflow -> option Session.
Variable start_session :
  World -> Workflow -> string -> option string -> World * (exn + string).
Variable stop_session : World -> Workflow -> string -> World * (exn + unit).

Local Abbreviation open_ :=
  (open_interactive_session members get_workflow sessions_first start_session).
Local Abbreviation close_ :=
  (close_interactive_session get_workflow sessions_first stop_session).
Local Abbreviation reached :=
  (provisioning_reached members get_workflow sessions_first).
Local Abbreviation reached_teardown :=
  (teardown_reached get_workflow sessions_first).

(** Every call of the open view is one of six: the four validation
    failures, the provisioning that returns and the one that raises. *)
Lemma open_inversion w workflow_id_or_name ty user image :
  (mem_string ty members = false
   /\ open_ w workflow_id_or_name ty user image
      = (Returns (UnknownSessionType members ty), w, []))
  \/ (mem_string ty members = true
      /\ exists e,
          get_workflow w workflow_id_or_name user = inl e
          /\ open_ w workflow_id_or_name ty user image
             = (error_while_unbound e, w, [EvResolve workflow_id_or_name user]))
  \/ (mem_string ty members = true
      /\ exists wf s,
          get_workflow w workflow_id_or_name user = inr wf
          /\ sessions_first w wf = Some s
          /\ open_ w workflow_id_or_name ty user image
             = (Returns SessionAlreadyOpen, w,
                [EvResolve workflow_id_or_name user; EvSessionsFirst wf]))
  \/ (mem_string ty members = true
      /\ exists wf,
          get_workflow w workflow_id_or_name user = inr wf
          /\ sessions_first w wf = None
          /\ status wf = deleted
          /\ open_ w workflow_id_or_name ty user image
             = (Returns WorkflowDeleted, w,
                [EvResolve workflow_id_or_name user; EvSessionsFirst wf; EvStatus wf]))
  \/ (exists wf w' access_path,
         reached w workflow_id_or_name ty user wf
         /\ start_session w wf ty image = (w', inr access_path)
         /\ open_ w workflow_id_or_name ty user image
            = (Returns (SessionOpened access_path), w',
               [EvResolve workflow_id_or_name user; EvSessionsFirst wf; EvStatus wf;
                EvStart wf ty image]))
  \/ (exists wf w' e,
         reached w workflow_id_or_name ty user wf
         /\ start_session w wf ty image = (w', inl e)
         /\ open_ w workflow_id_or_name ty user image
            = (Returns (error_after_resolution e), w',
               [EvResolve workflow_id_or_name user; EvSessionsFirst wf; EvStatus wf;
                EvStart wf ty image])).
Proof.
  rewrite open_interactive_session_paths. unfold open_steps, provisioning_reached.
  destruct (mem_string ty members) eqn:Hmem; cbn; [|left; auto].
  destruct (get_workflow w workflow_id_or_name user) as [e|wf] eqn:Hres.
  { right; left. split; [reflexivity|]. exists e. auto. }
  destruct (sessions_first w wf) as [s|] eqn:Hses.
  { right; right; left. split; [reflexivity|]. exists wf, s. auto. }
  destruct (RunStatus_eqb (status wf) deleted) eqn:Hst.
  { apply RunStatus_eqb_eq in Hst.
    right; right; right; left. split; [reflexivity|]. exists wf. auto. }
  assert (Hnd : status wf <> deleted).
  { intros Hdel. rewrite Hdel in Hst. discriminate. }
  destruct (start_session w wf ty image) as [w' [e|access_path]] eqn:Hstart.
  - right; right; right; right; right. exists wf, w', e. auto 10.
  - right; right; right; right; left. exists wf, w', access_path. auto 10.
Qed.

(** Every call of the close view is one of five: the missing argument, the
    resolver failure, the missing session, the teardown that returns and
    the one that raises. *)
Lemma close_inversion w args workflow_id_or_name :
  (args_get args "user" = None
   /\ close_ w args workflow_id_or_name
      = (Raises_UnboundLocalError "workflow", w, []))
  \/ (exists user e,
         args_get args "user" = Some user
         /\ get_workflow w workflow_id_or_name user = inl e
         /\ close_ w args workflow_id_or_name
            = (Returns (error_while_none e), w, [EvResolve workflow_id_or_name user]))
  \/ (exists user wf,
         args_get args "user" = Some user
         /\ get_workflow w workflow_id_or_name user = inr wf
         /\ sessions_first w wf = None
         /\ close_ w args workflow_id_or_name
            = (Returns (NoOpenSession workflow_id_or_name), w,
               [EvResolve workflow_id_or_name user; EvSessionsFirst wf]))
  \/ (exists user wf s w',
         reached_teardown w args workflow_id_or_name user wf s
         /\ stop_session w wf (id_ s) = (w', inr tt)
         /\ close_ w args workflow_id_or_name
            = (Returns SessionClosed, w',
               [EvResolve workflow_id_or_name user; EvSessionsFirst wf;
                EvStop wf (id_ s)]))
  \/ (exists user wf s w' e,
         reached_teardown w args workflow_id_or_name user wf s
         /\ stop_session w wf (id_ s) = (w', inl e)
         /\ close_ w args workflow_id_or_name
            = (Returns (error_after_resolution e), w',
               [EvResolve workflow_id_or_name user; EvSessionsFirst wf;
                EvStop wf (id_ s)])).
Proof.
  rewrite close_interactive_session_paths. unfold close_steps, teardown_reached.
  destruct (args_get args "user") as [user|] eqn:Huser; [|left; auto].
  destruct (get_workflow w workflow_id_or_name user) as [e|wf] eqn:Hres.
  { right; left. exists user, e. auto. }
  destruct (sessions_first w wf) as [s|] eqn:Hses.
  2:{ right; right; left. exists user, wf. auto. }
  destruct (stop_session w wf (id_ s)) as [w' [e|[]]] eqn:Hstop.
  - right; right; right; right. exists user, wf, s, w', e. auto 10.
  - right; right; right; left. exists user, wf, s, w'. auto 10.
Qed.

Ltac open_cases w ref ty user image E :=
  destruct (open_inversion w ref ty user image)
    as [[Hmem E]
       |[[Hmem [e [Hres E]]]
        |[[Hmem [wf [s [Hres [Hses E]]]]]
         |[[Hmem [wf [Hres [Hses [Hdel E]]]]]
          |[[wf [w' [access_path [Hreach [Hstart E]]]]]
           |[wf [w' [e [Hreach [Hstart E]]]]]]]]]].

Ltac close_cases w args ref E :=
  destruct (close_inversion w args ref)
    as [[Huser E]
       |[[user [e [Huser [Hres E]]]]
        |[[user [wf [Huser [Hres [Hses E]]]]]
         |[[user [wf [s [w' [Hreach [Hstop E]]]]]]
          |[user [wf [s [w' [e [Hreach [Hstop E]]]]]]]]]]].

Ltac clash H :=
  cbv [status_of outcome_of fst snd UnknownSessionType SessionAlreadyOpen
       WorkflowDeleted SessionOpened SessionClosed NoOpenSession
       error_after_resolution error_while_none error_while_unbound jsonify] in H;
  try discriminate H;
  repeat match type of H with
    | context [is_key_or_value_error ?x] =>
        let Hc := fresh "Hclass" in
        destruct (is_key_or_value_error x) eqn:Hc
    end;
  try discriminate H.

(** X1. Open answers 200 exactly when the request passes the four tests
    and the backend returns an access path; the body is then the one field
    [path] with that access path as returned, the world is the one the
    backend left, and the backend was handed the requested type and the
    image override as given. *)
Theorem open_succeeds_iff w workflow_id_or_name ty user image :
  (forall wf w' access_path,
      reached w workflow_id_or_name ty user wf ->
      start_session w wf ty image = (w', inr access_path) ->
      open_ w workflow_id_or_name ty user image
      = (Returns (jsonify [("path", access_path)], 200), w',
         [EvResolve workflow_id_or_name user; EvSessionsFirst wf; EvStatus wf;
          EvStart wf ty image]))
  /\ (status_of (outcome_of (open_ w workflow_id_or_name ty user image)) = Some 200
      <-> exists wf w' access_path,
          reached w workflow_id_or_name ty user wf
          /\ start_session w wf ty image = (w', inr access_path)).
Proof.
  assert (Hif : forall wf w' access_path,
             reached w workflow_id_or_name ty user wf ->
             start_session w wf ty image = (w', inr access_path) ->
             open_ w workflow_id_or_name ty user image
             = (Returns (jsonify [("path", access_path)], 200), w',
                [EvResolve workflow_id_or_name user; EvSessionsFirst wf; EvStatus wf;
                 EvStart wf ty image])).
  { intros wf w' access_path [Hmem [Hres [Hses Hst]]] Hstart.
    rewrite open_interactive_session_paths. unfold open_steps.
    rewrite Hmem, Hres, Hses, (RunStatus_eqb_neq _ _ Hst), Hstart. reflexivity. }
  split; [exact Hif|]. split.
  - intros H200.
    open_cases w workflow_id_or_name ty user image E; rewrite E in H200;
      try (clash H200; fail).
    exists wf, w', access_path. auto.
  - intros [wf [w' [access_path [Hreach Hstart]]]].
    rewrite (Hif _ _ _ Hreach Hstart). reflexivity.
Qed.

(** X2. Open answers 400 exactly when the backend, reached after the four
    tests, raises a [KeyError] or a [ValueError]; it answers 500 exactly
    when the resolver or the backend raises an error of another class. *)
Theorem open_error_status_iff w workflow_id_or_name ty user image :
  (status_of (outcome_of (open_ w workflow_id_or_name ty user image)) = Some 400
   <-> exists wf w' e,
       reached w workflow_id_or_name ty user wf
       /\ start_session w wf ty image = (w', inl e)
       /\ is_key_or_value_error e = true)
  /\ (status_of (outcome_of (open_ w workflow_id_or_name ty user image)) = Some 500
      <-> (mem_string ty members = true
           /\ exists e,
               get_workflow w workflow_id_or_name user = inl e
               /\ is_key_or_value_error e = false)
          \/ (exists wf w' e,
                 reached w workflow_id_or_name ty user wf
                 /\ start_session w wf ty image = (w', inl e)
                 /\ is_key_or_value_error e = false)).
Proof.
  split; split.
  - intros H400.
    open_cases w workflow_id_or_name ty user image E; rewrite E in H400;
      try (clash H400; fail).
    clash H400. exists wf, w', e. auto.
  - intros [wf0 [w0 [e0 [Hreach0 [Hstart0 Hclass0]]]]].
    open_cases w workflow_id_or_name ty user image E; rewrite E;
      destruct Hreach0 as [Hmem0 [Hres0 [Hses0 Hst0]]];
      try destruct Hreach as [_ [Hres [_ _]]];
      try congruence.
    assert (wf = wf0) by congruence. subst wf0.
    assert (e = e0) by congruence. subst e0.
    cbv [status_of outcome_of fst error_after_resolution jsonify].
    rewrite Hclass0. reflexivity.
  - intros H500.
    open_cases w workflow_id_or_name ty user image E; rewrite E in H500;
      try (clash H500; fail).
    + clash H500. left. split; [assumption|]. exists e. auto.
    + clash H500. right. exists wf, w', e. auto.
  - intros [[Hmem0 [e0 [Hres0 Hclass0]]]|[wf0 [w0 [e0 [Hreach0 [Hstart0 Hclass0]]]]]].
    + rewrite open_interactive_session_paths. unfold open_steps.
      rewrite Hmem0, Hres0. cbv [negb status_of outcome_of fst error_while_unbound jsonify].
      rewrite Hclass0. reflexivity.
    + destruct Hreach0 as [Hmem0 [Hres0 [Hses0 Hst0]]].
      rewrite open_interactive_session_paths. unfold open_steps.
      rewrite Hmem0, Hres0, Hses0, (RunStatus_eqb_neq _ _ Hst0), Hstart0.
      cbv [negb status_of outcome_of fst error_after_resolution jsonify].
      rewrite Hclass0. reflexivity.
Qed.

(** X3. Close answers 200 exactly when the query carries [user], the
    workflow resolves for it, has a session, and the teardown of that
    session returns; 200 never comes with another body than the
    confirmation. *)
Theorem close_succeeds_iff w args workflow_id_or_name :
  (status_of (outcome_of (close_ w args workflow_id_or_name)) = Some 200
   <-> exists user wf s w',
       reached_teardown w args workflow_id_or_name user wf s
       /\ stop_session w wf (id_ s) = (w', inr tt))
  /\ (status_of (outcome_of (close_ w args workflow_id_or_name)) = Some 200
      <-> outcome_of (close_ w args workflow_id_or_name)
          = Returns (jsonify [("message", "The interactive session has been closed")],
                     200)).
Proof.
  split; split.
  - intros H200.
    close_cases w args workflow_id_or_name E; rewrite E in H200;
      try (clash H200; fail).
    exists user, wf, s, w'. auto.
  - intros [user [wf [s [w' [[Huser [Hres Hses]] Hstop]]]]].
    rewrite close_interactive_session_paths. unfold close_steps.
    rewrite Huser, Hres, Hses, Hstop. reflexivity.
  - intros H200.
    close_cases w args workflow_id_or_name E; rewrite E in H200;
      try (clash H200; fail).
    rewrite E. reflexivity.
  - intros Hbody. rewrite Hbody. reflexivity.
Qed.

(** X4. Close answers 404 exactly when the query carries [user] and either
    the resolver raises a [KeyError] or a [ValueError] for the reference,
    or the workflow resolves and has no session. *)
Theorem close_not_found_iff w args workflow_id_or_name :
  status_of (outcome_of (close_ w args workflow_id_or_name)) = Some 404
  <-> exists user,
      args_get args "user" = Some user
      /\ ((exists e,
              get_workflow w workflow_id_or_name user = inl e
              /\ is_key_or_value_error e = true)
          \/ (exists wf,
                 get_workflow w workflow_id_or_name user = inr wf
                 /\ sessions_first w wf = None)).
Proof.
  split.
  - intros H404.
    close_cases w args workflow_id_or_name E; rewrite E in H404;
      try (clash H404; fail).
    + clash H404. exists user. split; [assumption|]. left. exists e. auto.
    + exists user. split; [assumption|]. right. exists wf. auto.
  - intros [user [Huser [[e [Hres Hclass]]|[wf [Hres Hses]]]]];
      rewrite close_interactive_session_paths; unfold close_steps;
      rewrite Huser, Hres.
    + cbv [status_of outcome_of fst error_while_none jsonify].
      rewrite Hclass. reflexivity.
    + rewrite Hses. reflexivity.
Qed.

(** X5. Close answers 400 exactly when the teardown it reached raises a
    [KeyError] or a [ValueError]; it answers 500 exactly when the resolver
    or the teardown raises an error of another class. *)
Theorem close_error_status_iff w args workflow_id_or_name :
  (status_of (outcome_of (close_ w args workflow_id_or_name)) = Some 400
   <-> exists user wf s w' e,
       reached_teardown w args workflow_id_or_name user wf s
       /\ stop_session w wf (id_ s) = (w', inl e)
       /\ is_key_or_value_error e = true)
  /\ (status_of (outcome_of (close_ w args workflow_id_or_name)) = Some 500
      <-> exists user,
          args_get args "user" = Some user
          /\ ((exists e,
                  get_workflow w workflow_id_or_name user = inl e
                  /\ is_key_or_value_error e = false)
              \/ (exists wf s w' e,
                     get_workflow w workflow_id_or_name user = inr wf
                     /\ sessions_first w wf = Some s
                     /\ stop_session w wf (id_ s) = (w', inl e)
                     /\ is_key_or_value_error e = false))).
Proof.
  split; split.
  - intros H400.
    close_cases w args workflow_id_or_name E; rewrite E in H400;
      try (clash H400; fail).
    clash H400. exists user, wf, s, w', e. auto.
  - intros [user [wf [s [w' [e [[Huser [Hres Hses]] [Hstop Hclass]]]]]]].
    rewrite close_interactive_session_paths. unfold close_steps.
    rewrite Huser, Hres, Hses, Hstop.
    cbv [status_of outcome_of fst error_after_resolution jsonify].
    rewrite Hclass. reflexivity.
  - intros H500.
    close_cases w args workflow_id_or_name E; rewrite E in H500;
      try (clash H500; fail).
    + clash H500. exists user. split; [assumption|]. left. exists e. auto.
    + clash H500. destruct Hreach as [Huser [Hres Hses]].
      exists user. split; [assumption|]. right. exists wf, s, w', e. auto.
  - intros [user [Huser [[e [Hres Hclass]]|[wf [s [w' [e [Hres [Hses [Hstop Hclass]]]]]]]]]];
      rewrite close_interactive_session_paths; unfold close_steps;
      rewrite Huser, Hres.
    + cbv [status_of outcome_of fst error_while_none jsonify].
      rewrite Hclass. reflexivity.
    + rewrite Hses, Hstop.
      cbv [status_of outcome_of fst error_after_resolution jsonify].
      rewrite Hclass. reflexivity.
Qed.

(** X6. An error the backend raises while tearing the session down is
    answered with the error's own description as the message, with status
    400 for a [KeyError] or a [ValueError] and 500 for any other class; the
    world is the one the failed teardown left, and the teardown is not
    attempted again. *)
Theorem teardown_error_reported w args workflow_id_or_name user wf s w' e :
  reached_teardown w args workflow_id_or_name user wf s ->
  stop_session w wf (id_ s) = (w', inl e) ->
  close_ w args workflow_id_or_name
  = (Returns (jsonify [("message", str e)],
              if is_key_or_value_error e then 400 else 500),
     w',
     [EvResolve workflow_id_or_name user; EvSessionsFirst wf; EvStop wf (id_ s)]).
Proof.
  intros [Huser [Hres Hses]] Hstop.
  rewrite close_interactive_session_paths. unfold close_steps.
  rewrite Huser, Hres, Hses, Hstop. reflexivity.
Qed.

(** X7. When the resolver raises an error that is neither a [KeyError]
    nor a [ValueError], both views answer 500 with the error's own
    description, make no further call (no session lookup, no backend call)
    and leave the world as it was. *)
Theorem resolver_failure_internal_error
        w args workflow_id_or_name ty user image e :
  get_workflow w workflow_id_or_name user = inl e ->
  is_key_or_value_error e = false ->
  (mem_string ty members = true ->
   open_ w workflow_id_or_name ty user image
   = (Returns (jsonify [("message", str e)], 500), w,
      [EvResolve workflow_id_or_name user]))
  /\ (args_get args "user" = Some user ->
      close_ w args workflow_id_or_name
      = (Returns (jsonify [("message", str e)], 500), w,
         [EvResolve workflow_id_or_name user])).
Proof.
  intros Hres Hclass. split.
  - intros Hmem.
    rewrite open_interactive_session_paths. unfold open_steps.
    rewrite Hmem, Hres. unfold error_while_unbound. rewrite Hclass. reflexivity.
  - intros Huser.
    rewrite close_interactive_session_paths. unfold close_steps.
    rewrite Huser, Hres. unfold error_while_none. rewrite Hclass. reflexivity.
Qed.

(** X8. The views change the world through the backend only: a call that
    does not invoke the backend leaves the world as it found it, and a
    call that does leaves exactly the world the backend returned, whether
    the backend succeeded or raised. *)
Theorem world_changes_only_through_backend :
  (forall w workflow_id_or_name ty user image,
      (provision_invoked (calls_of (open_ w workflow_id_or_name ty user image)) = false ->
       world_of (open_ w workflow_id_or_name ty user image) = w)
      /\ (forall wf,
             reached w workflow_id_or_name ty user wf ->
             world_of (open_ w workflow_id_or_name ty user image)
             = fst (start_session w wf ty image)))
  /\ (forall w args workflow_id_or_name,
         (teardown_invoked (calls_of (close_ w args workflow_id_or_name)) = false ->
          world_of (close_ w args workflow_id_or_name) = w)
         /\ (forall user wf s,
                reached_teardown w args workflow_id_or_name user wf s ->
                world_of (close_ w args workflow_id_or_name)
                = fst (stop_session w wf (id_ s)))).
Proof.
  split.
  - intros w ref ty user image. split.
    + intros Hno.
      open_cases w ref ty user image E; rewrite E in Hno |- *;
        try reflexivity; discriminate Hno.
    + intros wf [Hmem [Hres [Hses Hst]]].
      rewrite open_interactive_session_paths. unfold open_steps.
      rewrite Hmem, Hres, Hses, (RunStatus_eqb_neq _ _ Hst).
      destruct (start_session w wf ty image). reflexivity.
  - intros w args ref. split.
    + intros Hno.
      close_cases w args ref E; rewrite E in Hno |- *;
        try reflexivity; discriminate Hno.
    + intros user wf s [Huser [Hres Hses]].
      rewrite close_interactive_session_paths. unfold close_steps.
      rewrite Huser, Hres, Hses.
      destruct (stop_session w wf (id_ s)). reflexivity.
Qed.

(** X9. Neither view retries or crosses over: a call of open asks the
    resolver at most once and the backend to provision at most once, and
    never to tear down; a call of close asks the resolver at most once and
    the backend to tear down at most once, and never to provision. *)
Theorem backend_called_at_most_once :
  (forall w workflow_id_or_name ty user image,
      let cs := calls_of (open_ w workflow_id_or_name ty user image) in
      (length (filter is_resolve cs) <= 1)%nat
      /\ (length (filter is_start cs) <= 1)%nat
      /\ teardown_invoked cs = false)
  /\ (forall w args workflow_id_or_name,
         let cs := calls_of (close_ w args workflow_id_or_name) in
         (length (filter is_resolve cs) <= 1)%nat
         /\ (length (filter is_stop cs) <= 1)%nat
         /\ provision_invoked cs = false).
Proof.
  split.
  - intros w ref ty user image cs. subst cs.
    open_cases w ref ty user image E; rewrite E; cbn; repeat split; lia.
  - intros w args ref cs. subst cs.
    close_cases w args ref E; rewrite E; cbn; repeat split; lia.
Qed.

(** X10. Close tears down no session but the one the request designates:
    the backend is asked to stop session [sid] for workflow [target]
    exactly when the query carries [user], the resolver returns [target]
    for the reference and that user, and the session lookup on [target]
    returns the session whose identifier is [sid]. *)
Theorem close_tears_down_only_designated_session
        w args workflow_id_or_name target sid :
  In (EvStop target sid) (calls_of (close_ w args workflow_id_or_name))
  <-> exists user s,
      reached_teardown w args workflow_id_or_name user target s /\ sid = id_ s.
Proof.
  split.
  - intros Hin.
    close_cases w args workflow_id_or_name E; rewrite E in Hin; cbn in Hin.
    + destruct Hin.
    + destruct Hin as [H|[]]; discriminate H.
    + destruct Hin as [H|[H|[]]]; discriminate H.
    + destruct Hin as [H|[H|[H|[]]]]; try discriminate H.
      inversion H; subst. exists user, s. auto.
    + destruct Hin as [H|[H|[H|[]]]]; try discriminate H.
      inversion H; subst. exists user, s. auto.
  - intros [user [s [[Huser [Hres Hses]] Hsid]]]. subst sid.
    rewrite close_interactive_session_paths. unfold close_steps.
    rewrite Huser, Hres, Hses.
    destruct (stop_session w target (id_ s)). cbn. auto.
Qed.

(** X11. The field [path] comes with status 200 and with it only: every
    response of open is either status 200 with the one field [path], or
    another status with the one field [message]; every response of close
    has the one field [message]. *)
Theorem response_body_shape :
  (forall w workflow_id_or_name ty user image body code,
      outcome_of (open_ w workflow_id_or_name ty user image) = Returns (body, code) ->
      (code = 200 /\ exists access_path, body = [("path", access_path)])
      \/ (code <> 200 /\ exists message, body = [("message", message)]))
  /\ (forall w args workflow_id_or_name body code,
         outcome_of (close_ w args workflow_id_or_name) = Returns (body, code) ->
         exists message, body = [("message", message)]).
Proof.
  split.
  - intros w ref ty user image body code Hout.
    open_cases w ref ty user image E; rewrite E in Hout; clash Hout;
      inversion Hout; subst;
      try (right; split; [discriminate | eexists; reflexivity]).
    left. split; [reflexivity | eexists; reflexivity].
  - intros w args ref body code Hout.
    close_cases w args ref E; rewrite E in Hout; clash Hout;
      inversion Hout; subst; eexists; reflexivity.
Qed.

(** X12. The image override reaches the backend and nothing else: on a
    request that does not get as far as provisioning, the view returns the
    same outcome, world and calls whatever image is sent. *)
Theorem image_matters_to_backend_only w workflow_id_or_name ty user image image' :
  provision_invoked (calls_of (open_ w workflow_id_or_name ty user image)) = false ->
  open_ w workflow_id_or_name ty user image'
  = open_ w workflow_id_or_name ty user image.
Proof.
  intros Hno.
  rewrite !open_interactive_session_paths in *. unfold open_steps in *.
  destruct (mem_string ty members); cbn in *; [|reflexivity].
  destruct (get_workflow w workflow_id_or_name user) as [e|wf]; [reflexivity|].
  destruct (sessions_first w wf); [reflexivity|].
  destruct (RunStatus_eqb (status wf) deleted); [reflexivity|].
  destruct (start_session w wf ty image). discriminate Hno.
Qed.

End Coverage.

(** ** The outcomes on the scenarios *)

Section CoverageScenarios.

Import Scenario.

(** Scenario A: [W1] running, no session; the backend provisions. *)
Lemma open_succeeds_scenario :
  provisioning_reached InteractiveSessionType get_workflow sessions_first
                       store_A "W1" "jupyter" "U1" W1
  /\ open_ store_A "W1" "jupyter" "U1" None
     = (Returns (jsonify [("path", "/dd4e93cf-e6d0-4714-a601-301ed97eec60")], 200),
        store_C,
        [EvResolve "W1" "U1"; EvSessionsFirst W1; EvStatus W1;
         EvStart W1 "jupyter" None]).
Proof.
  assert (Hreach : provisioning_reached InteractiveSessionType get_workflow
                                        sessions_first store_A "W1" "jupyter" "U1" W1).
  { repeat split; try reflexivity. discriminate. }
  split; [exact Hreach|].
  apply (proj1 (open_succeeds_iff
                  Store InteractiveSessionType get_workflow sessions_first
                  start_interactive_session store_A "W1" "jupyter" "U1" None)
               W1 store_C "/dd4e93cf-e6d0-4714-a601-301ed97eec60" Hreach).
  reflexivity.
Defined.

(** Scenario C closed on a cluster that cannot be reached. *)
Lemma teardown_error_scenario :
  teardown_reached get_workflow sessions_first store_C [("user", "U1")] "W1" "U1" W1 S1
  /\ close_interactive_session get_workflow sessions_first (failing_stop cluster_down)
                               store_C [("user", "U1")] "W1"
     = (Returns (jsonify [("message", "Kubernetes API unreachable")], 500), store_C,
        [EvResolve "W1" "U1"; EvSessionsFirst W1; EvStop W1 (id_ S1)]).
Proof.
  assert (Hreach : teardown_reached get_workflow sessions_first
                                    store_C [("user", "U1")] "W1" "U1" W1 S1).
  { repeat split; reflexivity. }
  split; [exact Hreach|].
  apply (teardown_error_reported
           Store get_workflow sessions_first (failing_stop cluster_down)
           store_C [("user", "U1")] "W1" "U1" W1 S1 store_C cluster_down Hreach).
  reflexivity.
Defined.

(** Both views on a record store that cannot be reached. *)
Lemma resolver_failure_scenario :
  open_interactive_session InteractiveSessionType (failing_resolver database_down)
                           sessions_first start_interactive_session
                           store_A "W1" "jupyter" "U1" None
  = (Returns (jsonify [("message", "could not connect to server")], 500), store_A,
     [EvResolve "W1" "U1"])
  /\ close_interactive_session (failing_resolver database_down) sessions_first
                               stop_interactive_session store_C [("user", "U1")] "W1"
     = (Returns (jsonify [("message", "could not connect to server")], 500), store_C,
        [EvResolve "W1" "U1"]).
Proof.
  split.
  - apply (resolver_failure_internal_error
             Store InteractiveSessionType (failing_resolver database_down)
             sessions_first start_interactive_session stop_interactive_session
             store_A [("user", "U1")] "W1" "jupyter" "U1" None database_down);
      reflexivity.
  - apply (resolver_failure_internal_error
             Store InteractiveSessionType (failing_resolver database_down)
             sessions_first start_interactive_session stop_interactive_session
             store_C [("user", "U1")] "W1" "jupyter" "U1" None database_down);
      reflexivity.
Defined.

(** Scenario C opened once more, with two different images. *)
Lemma image_matters_to_backend_only_scenario :
  provision_invoked (calls_of (open_ store_C "W1" "jupyter" "U1" None)) = false
  /\ open_ store_C "W1" "jupyter" "U1" (Some "jupyter/scipy-notebook")
     = open_ store_C "W1" "jupyter" "U1" None.
Proof.
  split; [reflexivity|].
  apply (image_matters_to_backend_only
           Store InteractiveSessionType get_workflow sessions_first
           start_interactive_session store_C "W1" "jupyter" "U1" None
           (Some "jupyter/scipy-notebook")).
  reflexivity.
Defined.

End CoverageScenarios.
